(** * Time-of-use bucket classifier

    A shallow embedding of [time_of_use_calculator.py]: the functions
    [is_holiday], [get_tou_bucket], [get_theme_for_bucket] and [main],
    followed by the properties that the specification states about them
    and by further properties read off the program.

    Conventions of the model.
    - A Python [datetime] is a record of the fields the program reads.
      [weekday] holds the value that [now.weekday()] returns (0 = Monday,
      ..., 6 = Sunday); the calendar arithmetic behind it belongs to the
      Python library and is not modelled.
    - [t = now.hour + now.minute / 60.0] is a binary64 float in Python; it
      is modelled with Rocq's primitive binary64 floats, so the comparisons
      [t < 14] are the ones the program performs.
    - [holidays.US(years=...)] is the external holiday oracle.  It is a
      parameter of the model; [None] stands for a call that raises.
    - A function that can let an exception escape returns [option]. *)

From Stdlib Require Import ZArith QArith Lia Lqa List Bool String Ascii.
From Stdlib Require Import Uint63 PrimFloat.
From stdpp Require Import base option countable gmap strings.

Local Open Scope string_scope.
Local Open Scope Z_scope.

(** ** Data model *)

Record datetime : Type := mk_datetime {
  year : Z;
  month : Z;
  day : Z;
  hour : Z;
  minute : Z;
  weekday : Z
}.

(** [now.date()] *)
Definition date (now : datetime) : Z * Z * Z :=
  (year now, month now, day now).

(** The ranges Python's [datetime] guarantees for its fields (the day is
    only bounded by 31: the length of the month plays no role here). *)
Definition valid_datetime (now : datetime) : Prop :=
  1 <= year now <= 9999 /\
  1 <= month now <= 12 /\
  1 <= day now <= 31 /\
  0 <= hour now <= 23 /\
  0 <= minute now <= 59 /\
  0 <= weekday now <= 6.

(** Conversion of a Python [int] to [float]; exact on the range of the
    fields of a [datetime] and on the thresholds of the schedule.  It is
    meant for that range only: a negative or very large integer, which a
    [datetime] never holds, wraps here and does not in Python. *)
Definition float_of_int (z : Z) : float :=
  PrimFloat.of_uint63 (Uint63.of_Z z).

(** [now.hour + now.minute / 60.0] *)
Definition decimal_hours (now : datetime) : float :=
  PrimFloat.add (float_of_int (hour now))
                (PrimFloat.div (float_of_int (minute now)) 60%float).

(** [t < k] and [k <= t] for a float [t] and an int literal [k] *)
Definition float_lt_int (t : float) (k : Z) : bool :=
  PrimFloat.ltb t (float_of_int k).

Definition int_le_float (k : Z) (t : float) : bool :=
  PrimFloat.leb (float_of_int k) t.

(** Python's [sub in s] on strings: [sub] occurs in [s] as a substring. *)
Fixpoint str_in (sub s : string) : bool :=
  String.prefix sub s ||
  match s with
  | EmptyString => false
  | String _ s' => str_in sub s'
  end.

(** ** The program *)

Section Classifier.

(** [holidays.US(years=y)]: the set of holiday dates of year [y], or
    [None] when the lookup raises. *)
Variable US : Z -> option (gset (Z * Z * Z)).

Definition is_holiday (now : datetime) : option bool :=
  us_holidays ← US (year now);
  Some (bool_decide (date now ∈ us_holidays)).

Definition get_tou_bucket (now : datetime) : option string :=
  let t := decimal_hours now in
  (* [a or b] evaluates [b] only when [a] is false *)
  weekend_or_holiday ←
    (if 5 <=? weekday now then Some true else is_holiday now);
  if weekend_or_holiday : bool then
    if float_lt_int t 14 then
      Some "Super Off-Peak (Weekend/Holiday)"
    else if float_lt_int t 16 then
      Some "Off-Peak (Weekend/Holiday)"
    else if float_lt_int t 21 then
      Some "On-Peak (Weekend/Holiday)"
    else
      Some "Off-Peak (Weekend/Holiday)"
  else
    if float_lt_int t 6 then
      Some "Super Off-Peak (Weekday)"
    else if float_lt_int t 16 then
      if ((month now =? 3) || (month now =? 4))
         && (int_le_float 10 t && float_lt_int t 14) then
        Some "Extra Off-Peak (Mar/Apr, Weekday)"
      else
        Some "Off-Peak (Weekday)"
    else if float_lt_int t 21 then
      Some "On-Peak (Weekday)"
    else
      Some "Off-Peak (Weekday)".

End Classifier.

(** The dict that [get_theme_for_bucket] returns has the two fixed keys
    ["bg_color"] and ["emoji"]. *)
Record theme : Type := mk_theme {
  bg_color : string;
  emoji : string
}.

Definition get_theme_for_bucket (bucket : string) : theme :=
  if str_in "On-Peak" bucket then
    {| bg_color := "#f0e5d8"; emoji := "🚫" |}
  else
    {| bg_color := "#e0f7fa"; emoji := "✅" |}.

(** ** The page

    [main] configures the page, reads the clock, classifies the reading and
    renders the result through the streamlit library.  The model takes the
    reading of [datetime.now()] as its argument and returns the calls made
    to streamlit, in order, together with the way [main] ends.  The
    library's [strftime] is a parameter. *)

Inductive st_call : Type :=
| st_set_page_config (page_title layout : string)
| st_markdown (body : string) (unsafe_allow_html : bool)
| st_title (body : string)
| st_write (args : list string)
| st_header (body : string)
| st_subheader (body : string)
| st_info (body : string).

Inductive outcome : Type := Returned | Raised.

Definition newline : string := String "010"%char EmptyString.

(** The f-string that carries the style sheet, with [{{] and [}}] printed
    as braces. *)
Definition style_sheet (bg : string) : string :=
  newline +:+
  "        <style>" +:+ newline +:+
  "        .stApp {" +:+ newline +:+
  "            background-color: " +:+ bg +:+ ";" +:+ newline +:+
  "        }" +:+ newline +:+
  "        </style>" +:+ newline +:+
  "        ".

(** The f-string that carries the large emoji. *)
Definition emoji_block (e : string) : string :=
  "<div style='font-size:100px; text-align:center;'>" +:+ e +:+ "</div>".

Definition info_text : string :=
  "This app uses the TOU-DR1 Residential schedule with an extra off-peak window (10:00 a.m. – 2:00 p.m.) in March/April. " +:+
  "Holidays are treated as weekends. " +:+
  "Super Off-Peak and Off-Peak periods encourage energy usage (✅), while On-Peak periods discourage it (🚫).".

Section Page.

Variable US : Z -> option (gset (Z * Z * Z)).

(** [now.strftime(format)] *)
Variable strftime : datetime -> string -> string.

Definition main (now : datetime) : list st_call * outcome :=
  let config := st_set_page_config "TOU Bucket Tracker" "centered" in
  match get_tou_bucket US now with
  | None => (config :: nil, Raised)
  | Some current_bucket =>
      let theme := get_theme_for_bucket current_bucket in
      (config ::
       st_markdown (style_sheet (bg_color theme)) true ::
       st_title "SDG&E TOU-DR1 Residential Bucket Tracker" ::
       st_write ("Current Time:" :: strftime now "%Y-%m-%d %H:%M:%S" :: nil) ::
       st_header "Current TOU Bucket:" ::
       st_subheader current_bucket ::
       st_markdown (emoji_block (emoji theme)) true ::
       st_info info_text :: nil,
       Returned)
  end.

End Page.

(** ** The schedule in the words of the specification

    The specification names the pricing periods [SuperOffPeak], [OffPeak],
    [ExtraOffPeak] and [OnPeak], qualifies each with a day-type, and gives
    one threshold table per day-type over the exact fractional hour
    [t = hour + minute/60]. *)

Module Spec.

Inductive Period : Type := SuperOffPeak | OffPeak | ExtraOffPeak | OnPeak.

Inductive DayType : Type := Weekday | WeekendOrHoliday.

Definition Bucket : Type := Period * DayType.

(** The fractional hour of day, as an exact rational. *)
Definition t (now : datetime) : Q :=
  (inject_Z (hour now) + inject_Z (minute now) / 60)%Q.

Definition Qleb (x y : Q) : bool := Qle_bool x y.

Definition Qltb (x y : Q) : bool := negb (Qle_bool y x).

(** [lo <= t < hi] *)
Definition within (lo hi : Q) (t : Q) : bool := Qleb lo t && Qltb t hi.

Definition march_or_april (m : Z) : bool := (m =? 3) || (m =? 4).

(** A row of a threshold table: a condition on [t] and the month, and
    the period it selects. *)
Record row : Type := mk_row {
  guard : Q -> Z -> bool;
  period : Period
}.

Definition weekend_table : list row :=
  mk_row (fun t _ => Qltb t 14) SuperOffPeak ::
  mk_row (fun t _ => within 14 16 t) OffPeak ::
  mk_row (fun t _ => within 16 21 t) OnPeak ::
  mk_row (fun t _ => Qleb 21 t) OffPeak :: nil.

Definition weekday_table : list row :=
  mk_row (fun t _ => Qltb t 6) SuperOffPeak ::
  mk_row (fun t m => within 6 16 t && (march_or_april m && within 10 14 t))
         ExtraOffPeak ::
  mk_row (fun t m => within 6 16 t && negb (march_or_april m && within 10 14 t))
         OffPeak ::
  mk_row (fun t _ => within 16 21 t) OnPeak ::
  mk_row (fun t _ => Qleb 21 t) OffPeak :: nil.

Definition table (d : DayType) : list row :=
  match d with
  | Weekday => weekday_table
  | WeekendOrHoliday => weekend_table
  end.

(** Weekend-or-Holiday if the weekday is Saturday or Sunday, or the
    holiday answer is true; Weekday otherwise. *)
Definition day_type (now : datetime) (isHoliday : bool) : DayType :=
  if (weekday now =? 5) || (weekday now =? 6) || isHoliday
  then WeekendOrHoliday else Weekday.

(** The rows of a table that a time of day satisfies. *)
Definition matching (tb : list row) (t : Q) (m : Z) : list row :=
  List.filter (fun r => guard r t m) tb.

(** [classify(timestamp, isHoliday)]: the rows are evaluated in order and
    the first match wins. *)
Definition classify (now : datetime) (isHoliday : bool) : option Bucket :=
  let d := day_type now isHoliday in
  match matching (table d) (t now) (month now) with
  | r :: _ => Some (period r, d)
  | nil => None
  end.

(** How the program spells the buckets of the specification. *)
Definition bucket_of_label (s : string) : option Bucket :=
  if String.eqb s "Super Off-Peak (Weekend/Holiday)" then
    Some (SuperOffPeak, WeekendOrHoliday)
  else if String.eqb s "Off-Peak (Weekend/Holiday)" then
    Some (OffPeak, WeekendOrHoliday)
  else if String.eqb s "On-Peak (Weekend/Holiday)" then
    Some (OnPeak, WeekendOrHoliday)
  else if String.eqb s "Super Off-Peak (Weekday)" then
    Some (SuperOffPeak, Weekday)
  else if String.eqb s "Extra Off-Peak (Mar/Apr, Weekday)" then
    Some (ExtraOffPeak, Weekday)
  else if String.eqb s "Off-Peak (Weekday)" then
    Some (OffPeak, Weekday)
  else if String.eqb s "On-Peak (Weekday)" then
    Some (OnPeak, Weekday)
  else None.

(** The two themes of the theme mapper. *)
Definition discouraging : theme := {| bg_color := "#f0e5d8"; emoji := "🚫" |}.

Definition encouraging : theme := {| bg_color := "#e0f7fa"; emoji := "✅" |}.

End Spec.

(** ** Sample oracles and timestamps *)

(** An oracle that knows three holidays of 2023. *)
Definition us_2023 (y : Z) : option (gset (Z * Z * Z)) :=
  if y =? 2023
  then Some {[ (2023, 7, 4); (2023, 11, 11); (2023, 12, 25) ]}
  else Some ∅.

(** An oracle whose lookup raises. *)
Definition oracle_down (y : Z) : option (gset (Z * Z * Z)) := None.

(** An oracle without holidays. *)
Definition no_holidays (y : Z) : option (gset (Z * Z * Z)) := Some ∅.

(** Tuesday 4 July 2023, 13:00. *)
Definition tuesday_july_4 : datetime := mk_datetime 2023 7 4 13 0 1.

(** Wednesday 8 March 2023, 10:00. *)
Definition wednesday_march_8 : datetime := mk_datetime 2023 3 8 10 0 2.

(** Thursday 12 January 2023, 17:30. *)
Definition thursday_january_12 : datetime := mk_datetime 2023 1 12 17 30 3.

(** Saturday 8 July 2023, 17:30. *)
Definition saturday_july_8 : datetime := mk_datetime 2023 7 8 17 30 5.

(** Saturday 11 November 2023, 17:30. *)
Definition saturday_november_11 : datetime := mk_datetime 2023 11 11 17 30 5.

(** A stand-in for the library's [strftime]. *)
Definition sample_strftime (now : datetime) (format : string) : string :=
  if hour now <? 12 then "morning" else "afternoon".

(** The labels that occur in [get_tou_bucket]. *)
Definition labels : list string :=
  "Super Off-Peak (Weekend/Holiday)" :: "Off-Peak (Weekend/Holiday)" ::
  "On-Peak (Weekend/Holiday)" :: "Super Off-Peak (Weekday)" ::
  "Extra Off-Peak (Mar/Apr, Weekday)" :: "Off-Peak (Weekday)" ::
  "On-Peak (Weekday)" :: nil.

(** ** Time of day in whole minutes

    Both the float [decimal_hours] of the program and the rational [Spec.t]
    of the specification compare with an integer threshold [k] exactly as
    the minute of the day compares with [60 * k]. *)

Definition minute_of_day (now : datetime) : Z := 60 * hour now + minute now.

Definition at_time (h m : Z) : datetime := mk_datetime 1 1 1 h m 0.

Definition range (n : nat) : list Z := map Z.of_nat (seq 0 n).

(** The float comparisons agree with the integer ones at hour [h], minute
    [m] and threshold [k]. *)
Definition thresholds_exact_at (h m k : Z) : bool :=
  Bool.eqb (float_lt_int (decimal_hours (at_time h m)) k)
           (60 * h + m <? 60 * k) &&
  Bool.eqb (int_le_float k (decimal_hours (at_time h m)))
           (60 * k <=? 60 * h + m).

Definition thresholds_exact : bool :=
  forallb (fun h =>
    forallb (fun m =>
      forallb (fun k => thresholds_exact_at h m k) (range 25))
      (range 60))
    (range 24).

(** The two branches of [get_tou_bucket] over the minute of the day. *)
Definition weekend_bucket (n : Z) : string :=
  if n <? 60 * 14 then "Super Off-Peak (Weekend/Holiday)"
  else if n <? 60 * 16 then "Off-Peak (Weekend/Holiday)"
  else if n <? 60 * 21 then "On-Peak (Weekend/Holiday)"
  else "Off-Peak (Weekend/Holiday)".

Definition weekday_bucket (mo n : Z) : string :=
  if n <? 60 * 6 then "Super Off-Peak (Weekday)"
  else if n <? 60 * 16 then
    if ((mo =? 3) || (mo =? 4)) && ((60 * 10 <=? n) && (n <? 60 * 14))
    then "Extra Off-Peak (Mar/Apr, Weekday)"
    else "Off-Peak (Weekday)"
  else if n <? 60 * 21 then "On-Peak (Weekday)"
  else "Off-Peak (Weekday)".

(** ** The float comparisons are exact *)

Lemma In_range (z : Z) (n : nat) : 0 <= z < Z.of_nat n -> In z (range n).
Proof.
  intros Hz. unfold range.
  replace z with (Z.of_nat (Z.to_nat z)) by lia.
  apply in_map, in_seq. lia.
Qed.

(** Checked by running the binary64 operations on all 24 * 60 times of day
    and all thresholds from 0 to 24. *)
Lemma thresholds_exact_true : thresholds_exact = true.
Proof. vm_compute. reflexivity. Qed.

Lemma thresholds_exact_at_true (h m k : Z) :
  0 <= h <= 23 -> 0 <= m <= 59 -> 0 <= k <= 24 ->
  thresholds_exact_at h m k = true.
Proof.
  intros Hh Hm Hk.
  pose proof thresholds_exact_true as E. unfold thresholds_exact in E.
  rewrite forallb_forall in E.
  specialize (E h (In_range h 24 ltac:(lia))). cbv beta in E.
  rewrite forallb_forall in E.
  specialize (E m (In_range m 60 ltac:(lia))). cbv beta in E.
  rewrite forallb_forall in E.
  exact (E k (In_range k 25 ltac:(lia))).
Qed.

Lemma float_lt_int_minutes (now : datetime) (k : Z) :
  valid_datetime now -> 0 <= k <= 24 ->
  float_lt_int (decimal_hours now) k = (minute_of_day now <? 60 * k).
Proof.
  intros (_ & _ & _ & Hh & Hm & _) Hk.
  pose proof (thresholds_exact_at_true (hour now) (minute now) k Hh Hm Hk) as E.
  unfold thresholds_exact_at in E.
  apply andb_prop in E as [E _]. apply eqb_prop in E. exact E.
Qed.

Lemma int_le_float_minutes (now : datetime) (k : Z) :
  valid_datetime now -> 0 <= k <= 24 ->
  int_le_float k (decimal_hours now) = (60 * k <=? minute_of_day now).
Proof.
  intros (_ & _ & _ & Hh & Hm & _) Hk.
  pose proof (thresholds_exact_at_true (hour now) (minute now) k Hh Hm Hk) as E.
  unfold thresholds_exact_at in E.
  apply andb_prop in E as [_ E]. apply eqb_prop in E. exact E.
Qed.

Lemma Qleb_minutes (now : datetime) (k : Z) :
  Spec.Qleb (inject_Z k) (Spec.t now) = (60 * k <=? minute_of_day now).
Proof.
  unfold Spec.Qleb, Spec.t, minute_of_day, Qle_bool, Qplus, Qdiv, Qmult, Qinv, inject_Z.
  simpl. f_equal; lia.
Qed.

Lemma Qltb_minutes (now : datetime) (k : Z) :
  Spec.Qltb (Spec.t now) (inject_Z k) = (minute_of_day now <? 60 * k).
Proof.
  unfold Spec.Qltb. fold (Spec.Qleb (inject_Z k) (Spec.t now)).
  rewrite Qleb_minutes. rewrite Z.ltb_antisym. reflexivity.
Qed.

Lemma Qlt_minutes (now : datetime) (k : Z) :
  (Spec.t now < inject_Z k)%Q <-> minute_of_day now < 60 * k.
Proof.
  rewrite <- Z.ltb_lt, <- Qltb_minutes. unfold Spec.Qltb.
  rewrite negb_true_iff, <- not_true_iff_false, Qle_bool_iff.
  split; [apply Qlt_not_le | apply Qnot_le_lt].
Qed.

Lemma Qle_minutes (now : datetime) (k : Z) :
  (inject_Z k <= Spec.t now)%Q <-> 60 * k <= minute_of_day now.
Proof.
  rewrite <- Z.leb_le, <- Qleb_minutes. unfold Spec.Qleb.
  symmetry. apply Qle_bool_iff.
Qed.

Lemma get_tou_bucket_minutes US (now : datetime) :
  valid_datetime now ->
  get_tou_bucket US now =
    (c ← (if 5 <=? weekday now then Some true else is_holiday US now);
     Some (if c : bool then weekend_bucket (minute_of_day now)
           else weekday_bucket (month now) (minute_of_day now))).
Proof.
  intros Hv. unfold get_tou_bucket, weekend_bucket, weekday_bucket.
  cbv zeta.
  rewrite !(float_lt_int_minutes now) by (assumption || lia).
  rewrite !(int_le_float_minutes now) by (assumption || lia).
  destruct (if 5 <=? weekday now then Some true else is_holiday US now)
    as [[|]|]; simpl; repeat case_match; reflexivity.
Qed.

(** ** Auxiliary facts *)

(** Case analysis on integer comparisons that occur in the goal. *)
Ltac z_cases :=
  repeat match goal with
  | |- context [?a <? ?b] => destruct (Z.ltb_spec a b)
  | |- context [?a <=? ?b] => destruct (Z.leb_spec a b)
  | |- context [?a =? ?b] => destruct (Z.eqb_spec a b)
  end.

(** Statements about [Spec.t] in the context, restated over the minute of
    the day. *)
Ltac to_minutes :=
  repeat match goal with
  | H : (Spec.t ?n < ?q)%Q |- _ => apply (Qlt_minutes n (Qnum q)) in H
  | H : (?q <= Spec.t ?n)%Q |- _ => apply (Qle_minutes n (Qnum q)) in H
  | H : (_ <= Spec.t _ < _)%Q |- _ => destruct H
  end;
  cbn [Qnum] in *.

Lemma Qle_bool_true (k t : Q) : (k <= t)%Q -> Qle_bool k t = true.
Proof. intros H. apply Qle_bool_iff, H. Qed.

Lemma Qle_bool_false (k t : Q) : (t < k)%Q -> Qle_bool k t = false.
Proof.
  intros H. apply not_true_iff_false. intros E.
  apply Qle_bool_iff in E. lra.
Qed.

(** Evaluation of the threshold tests on [t] from the bounds on [t] that
    the context holds. *)
Ltac eval_thresholds t :=
  unfold Spec.within, Spec.Qltb, Spec.Qleb;
  repeat match goal with
  | |- context [Qle_bool ?k t] =>
      first [ rewrite (Qle_bool_true k t) by lra
            | rewrite (Qle_bool_false k t) by lra ]
  end.

Lemma hour_cases (t : Q) :
  (t < 6 \/ 6 <= t < 10 \/ 10 <= t < 14 \/ 14 <= t < 16 \/
   16 <= t < 21 \/ 21 <= t)%Q.
Proof.
  destruct (Qlt_le_dec t 6); [lra|].
  destruct (Qlt_le_dec t 10); [lra|].
  destruct (Qlt_le_dec t 14); [lra|].
  destruct (Qlt_le_dec t 16); [lra|].
  destruct (Qlt_le_dec t 21); lra.
Qed.

(** Each table has exactly one matching row at every time of day, in every
    month: its rows leave no gap and do not overlap. *)
Lemma table_partition (d : Spec.DayType) (t : Q) (m : Z) :
  exists r, Spec.matching (Spec.table d) t m = r :: nil.
Proof.
  unfold Spec.matching.
  destruct d; simpl;
    destruct (hour_cases t) as [H|[H|[H|[H|[H|H]]]]];
    eval_thresholds t; destruct (Spec.march_or_april m); simpl;
    eexists; reflexivity.
Qed.

(** The answer of the oracle decides the branch, together with the
    weekday. *)
Lemma get_tou_bucket_answer US (now : datetime) (h : bool) :
  valid_datetime now -> is_holiday US now = Some h ->
  get_tou_bucket US now =
    Some (match Spec.day_type now h with
          | Spec.WeekendOrHoliday => weekend_bucket (minute_of_day now)
          | Spec.Weekday => weekday_bucket (month now) (minute_of_day now)
          end).
Proof.
  intros Hv Hh. rewrite get_tou_bucket_minutes by assumption.
  destruct Hv as (_ & _ & _ & _ & _ & Hw).
  unfold Spec.day_type. rewrite Hh.
  z_cases; try lia; destruct h; reflexivity.
Qed.

(** On Saturday and Sunday the oracle is not consulted. *)
Lemma get_tou_bucket_weekend US (now : datetime) :
  valid_datetime now -> 5 <= weekday now ->
  get_tou_bucket US now = Some (weekend_bucket (minute_of_day now)).
Proof.
  intros Hv Hw. rewrite get_tou_bucket_minutes by assumption.
  z_cases; try lia. reflexivity.
Qed.

(** The weekend branch returns the label of the matching row of the
    Weekend-or-Holiday table. *)
Lemma weekend_bucket_spec (now : datetime) :
  exists r,
    Spec.matching Spec.weekend_table (Spec.t now) (month now) = r :: nil /\
    Spec.bucket_of_label (weekend_bucket (minute_of_day now)) =
      Some (Spec.period r, Spec.WeekendOrHoliday).
Proof.
  unfold Spec.matching, weekend_bucket. simpl.
  destruct (hour_cases (Spec.t now)) as [H|[H|[H|[H|[H|H]]]]];
    eval_thresholds (Spec.t now); simpl; eexists; (split; [reflexivity|]);
    to_minutes; simpl in *; z_cases; try lia; reflexivity.
Qed.

(** The weekday branch returns the label of the matching row of the
    Weekday table. *)
Lemma weekday_bucket_spec (now : datetime) :
  exists r,
    Spec.matching Spec.weekday_table (Spec.t now) (month now) = r :: nil /\
    Spec.bucket_of_label (weekday_bucket (month now) (minute_of_day now)) =
      Some (Spec.period r, Spec.Weekday).
Proof.
  unfold Spec.matching, weekday_bucket. simpl.
  change ((month now =? 3) || (month now =? 4))
    with (Spec.march_or_april (month now)).
  destruct (hour_cases (Spec.t now)) as [H|[H|[H|[H|[H|H]]]]];
    eval_thresholds (Spec.t now);
    destruct (Spec.march_or_april (month now)); simpl;
    eexists; (split; [reflexivity|]);
    to_minutes; simpl in *; z_cases; try lia; reflexivity.
Qed.

(** The program computes [classify] of the specification. *)
Lemma get_tou_bucket_refines US (now : datetime) (h : bool) :
  valid_datetime now -> is_holiday US now = Some h ->
  exists s b,
    get_tou_bucket US now = Some s /\
    Spec.bucket_of_label s = Some b /\
    Spec.classify now h = Some b.
Proof.
  intros Hv Hh. rewrite (get_tou_bucket_answer US now h Hv Hh).
  unfold Spec.classify. cbv zeta.
  destruct (Spec.day_type now h); simpl Spec.table.
  - destruct (weekday_bucket_spec now) as (r & -> & Hl).
    eexists _, _. split; [reflexivity|]. split; [exact Hl|reflexivity].
  - destruct (weekend_bucket_spec now) as (r & -> & Hl).
    eexists _, _. split; [reflexivity|]. split; [exact Hl|reflexivity].
Qed.

(** ** Substrings *)

Lemma append_cons (a : ascii) (s1 s2 : string) :
  String a s1 +:+ s2 = String a (s1 +:+ s2).
Proof. reflexivity. Qed.

Lemma prefix_app (sub s : string) :
  String.prefix sub s = true <-> exists post, s = sub +:+ post.
Proof.
  revert s. induction sub as [|a sub IH]; intros s.
  - split; [intros _; exists s; reflexivity | destruct s; reflexivity].
  - destruct s as [|b s]; simpl.
    + split; [discriminate | intros [post H]].
      rewrite append_cons in H. discriminate.
    + destruct (ascii_dec a b) as [->|Hab].
      * rewrite IH. split; intros [post H]; exists post.
        -- rewrite H. reflexivity.
        -- rewrite append_cons in H. injection H as H. exact H.
      * split; [discriminate | intros [post H]].
        rewrite append_cons in H. congruence.
Qed.

(** [str_in sub s] holds exactly when [sub] occurs in [s]. *)
Lemma str_in_spec (sub s : string) :
  str_in sub s = true <-> exists pre post, s = pre +:+ sub +:+ post.
Proof.
  induction s as [|a s IH];
    cbn [str_in]; rewrite orb_true_iff, prefix_app.
  - split.
    + intros [[post H]|H]; [|discriminate]. exists "", post. exact H.
    + intros (pre & post & H). left.
      destruct pre; [|rewrite append_cons in H; discriminate].
      exists post. exact H.
  - rewrite IH. split.
    + intros [[post H]|(pre & post & H)].
      * exists "", post. exact H.
      * exists (String a pre), post. rewrite H. reflexivity.
    + intros ([|b pre] & post & H).
      * left. exists post. exact H.
      * right. rewrite append_cons in H. injection H as _ H.
        exists pre, post. exact H.
Qed.

Lemma get_tou_bucket_labels US (now : datetime) (s : string) :
  get_tou_bucket US now = Some s -> In s labels.
Proof.
  unfold get_tou_bucket. cbv zeta.
  destruct (if 5 <=? weekday now then Some true else is_holiday US now)
    as [[|]|]; simpl; [| |discriminate];
    repeat case_match; intros [= <-]; simpl; tauto.
Qed.

(** ** Failure and themes *)

Lemma get_tou_bucket_none US (now : datetime) :
  get_tou_bucket US now = None <->
  weekday now < 5 /\ US (year now) = None.
Proof.
  unfold get_tou_bucket, is_holiday. cbv zeta.
  destruct (Z.leb_spec 5 (weekday now)) as [Hw|Hw];
    destruct (US (year now)) as [hs|]; simpl;
    repeat case_match;
    (split; [try discriminate; intros _; split; (lia || reflexivity)
            | intros [Hlt Hnone]; try discriminate; try reflexivity; lia]).
Qed.

(** The theme of the label of a valid timestamp, by the hour. *)
Lemma theme_by_hour US (now : datetime) (s : string) :
  valid_datetime now -> get_tou_bucket US now = Some s ->
  get_theme_for_bucket s =
    if (16 <=? hour now) && (hour now <=? 20)
    then {| bg_color := "#f0e5d8"; emoji := "🚫" |}
    else {| bg_color := "#e0f7fa"; emoji := "✅" |}.
Proof.
  intros Hv Hs. rewrite get_tou_bucket_minutes in Hs by assumption.
  destruct Hv as (_ & _ & _ & Hh & Hm & _).
  destruct (if 5 <=? weekday now then Some true else is_holiday US now)
    as [c|]; [|discriminate].
  simpl in Hs. injection Hs as <-.
  unfold weekend_bucket, weekday_bucket, minute_of_day.
  destruct c; z_cases; simpl; try lia; reflexivity.
Qed.

Lemma append_assoc (a b c : string) : (a +:+ b) +:+ c = a +:+ b +:+ c.
Proof.
  induction a as [|x a IH]; [reflexivity|].
  rewrite !append_cons, IH. reflexivity.
Qed.

(** * The claims *)

Ltac goal_minutes :=
  repeat match goal with
  | |- (Spec.t ?n < ?q)%Q => apply (Qlt_minutes n (Qnum q))
  | |- (?q <= Spec.t ?n)%Q => apply (Qle_minutes n (Qnum q))
  | |- (_ <= Spec.t _ < _)%Q => split
  end;
  cbn [Qnum].

(** C1. For every valid timestamp and every holiday answer,
    [get_tou_bucket] returns a label, the label is one of the buckets of
    the specification, and it is the bucket [classify] selects; and for
    each day-type exactly one row of the threshold table matches any time
    of day in any month, so the rows leave no gap and do not overlap. *)
Theorem classify_total_and_partition :
  (forall US now h,
     valid_datetime now -> is_holiday US now = Some h ->
     exists s b,
       get_tou_bucket US now = Some s /\
       Spec.bucket_of_label s = Some b /\
       Spec.classify now h = Some b) /\
  (forall d t m, exists r, Spec.matching (Spec.table d) t m = r :: nil).
Proof.
  split.
  - exact get_tou_bucket_refines.
  - exact table_partition.
Qed.

Lemma classify_total_and_partition_witness :
  valid_datetime tuesday_july_4 /\
  is_holiday us_2023 tuesday_july_4 = Some true /\
  exists s b,
    get_tou_bucket us_2023 tuesday_july_4 = Some s /\
    Spec.bucket_of_label s = Some b /\
    Spec.classify tuesday_july_4 true = Some b.
Proof.
  assert (Hv : valid_datetime tuesday_july_4)
    by (unfold valid_datetime; simpl; lia).
  assert (Hh : is_holiday us_2023 tuesday_july_4 = Some true)
    by (vm_compute; reflexivity).
  split; [exact Hv|]. split; [exact Hh|].
  exact (proj1 classify_total_and_partition us_2023 tuesday_july_4 true Hv Hh).
Defined.

(** C2. With holiday answer [h], the label comes from the
    Weekend-or-Holiday table when the weekday is Saturday or Sunday or [h]
    is true, and from the Weekday table otherwise; so the label carries the
    Weekend/Holiday qualifier exactly in the first case.  A Tuesday flagged
    as a holiday is SuperOffPeak (Weekend/Holiday) at 13:00. *)
Theorem day_type_selects_table US (now : datetime) (h : bool) :
  valid_datetime now -> is_holiday US now = Some h ->
  exists s r,
    get_tou_bucket US now = Some s /\
    (weekday now = 5 \/ weekday now = 6 \/ h = true ->
       Spec.matching Spec.weekend_table (Spec.t now) (month now) = r :: nil /\
       Spec.bucket_of_label s = Some (Spec.period r, Spec.WeekendOrHoliday)) /\
    (~ (weekday now = 5 \/ weekday now = 6 \/ h = true) ->
       Spec.matching Spec.weekday_table (Spec.t now) (month now) = r :: nil /\
       Spec.bucket_of_label s = Some (Spec.period r, Spec.Weekday)) /\
    ((exists p, Spec.bucket_of_label s = Some (p, Spec.WeekendOrHoliday)) <->
       weekday now = 5 \/ weekday now = 6 \/ h = true) /\
    (weekday now = 1 -> h = true -> hour now = 13 -> minute now = 0 ->
       s = "Super Off-Peak (Weekend/Holiday)").
Proof.
  intros Hv Hh. rewrite (get_tou_bucket_answer US now h Hv Hh).
  assert (Hd : Spec.day_type now h = Spec.WeekendOrHoliday <->
               weekday now = 5 \/ weekday now = 6 \/ h = true).
  { unfold Spec.day_type. z_cases; destruct h; simpl; intuition congruence. }
  destruct (Spec.day_type now h).
  - destruct (weekday_bucket_spec now) as (r & Hm & Hl).
    assert (Hn : ~ (weekday now = 5 \/ weekday now = 6 \/ h = true))
      by (rewrite <- Hd; discriminate).
    exists (weekday_bucket (month now) (minute_of_day now)), r.
    split; [reflexivity|]. split; [tauto|]. split; [tauto|]. split.
    + split; [|tauto]. intros [p Hp]. rewrite Hl in Hp. discriminate.
    + tauto.
  - destruct (weekend_bucket_spec now) as (r & Hm & Hl).
    assert (Hy : weekday now = 5 \/ weekday now = 6 \/ h = true)
      by (apply Hd; reflexivity).
    exists (weekend_bucket (minute_of_day now)), r.
    split; [reflexivity|]. split; [tauto|]. split; [tauto|]. split.
    + split; [tauto|]. intros _. eexists. exact Hl.
    + intros _ _ H13 H0. unfold weekend_bucket, minute_of_day.
      rewrite H13, H0. reflexivity.
Qed.

Lemma day_type_selects_table_witness :
  valid_datetime tuesday_july_4 /\
  is_holiday us_2023 tuesday_july_4 = Some true /\
  get_tou_bucket us_2023 tuesday_july_4 =
    Some "Super Off-Peak (Weekend/Holiday)".
Proof.
  assert (Hv : valid_datetime tuesday_july_4)
    by (unfold valid_datetime; simpl; lia).
  assert (Hh : is_holiday us_2023 tuesday_july_4 = Some true)
    by (vm_compute; reflexivity).
  split; [exact Hv|]. split; [exact Hh|].
  destruct (day_type_selects_table us_2023 tuesday_july_4 true Hv Hh)
    as (s & r & Hs & _ & _ & _ & Hex).
  rewrite Hs. f_equal. apply Hex; reflexivity.
Defined.

(** Closes the cases of a table once the time of day is known. *)
Ltac table_cases :=
  intros; to_minutes; goal_minutes;
  unfold minute_of_day in *; simpl in *;
  z_cases; try lia; try reflexivity; try discriminate.

(** C3. On a Weekday day-type the boundaries are half-open: below 6 the
    label is SuperOffPeak, from 6 up to 16 OffPeak (or ExtraOffPeak), from
    16 up to 21 OnPeak and from 21 on OffPeak; 5:59 is SuperOffPeak, 6:00
    OffPeak, 15:59 OffPeak (in every month), 16:00 OnPeak, 20:59 OnPeak
    and 21:00 OffPeak. *)
Theorem weekday_boundaries US (now : datetime) (h : bool) :
  valid_datetime now -> is_holiday US now = Some h ->
  Spec.day_type now h = Spec.Weekday ->
  exists s,
    get_tou_bucket US now = Some s /\
    ((Spec.t now < 6)%Q -> s = "Super Off-Peak (Weekday)") /\
    ((6 <= Spec.t now < 16)%Q ->
       s = "Off-Peak (Weekday)" \/ s = "Extra Off-Peak (Mar/Apr, Weekday)") /\
    ((16 <= Spec.t now < 21)%Q -> s = "On-Peak (Weekday)") /\
    ((21 <= Spec.t now)%Q -> s = "Off-Peak (Weekday)") /\
    (hour now = 5 -> minute now = 59 -> s = "Super Off-Peak (Weekday)") /\
    (hour now = 6 -> minute now = 0 -> s = "Off-Peak (Weekday)") /\
    (hour now = 15 -> minute now = 59 -> s = "Off-Peak (Weekday)") /\
    (hour now = 16 -> minute now = 0 -> s = "On-Peak (Weekday)") /\
    (hour now = 20 -> minute now = 59 -> s = "On-Peak (Weekday)") /\
    (hour now = 21 -> minute now = 0 -> s = "Off-Peak (Weekday)").
Proof.
  intros Hv Hh Hd. rewrite (get_tou_bucket_answer US now h Hv Hh), Hd.
  eexists. split; [reflexivity|]. unfold weekday_bucket.
  repeat split; table_cases.
  all: destruct ((month now =? 3) || (month now =? 4)); simpl; tauto.
Qed.

Lemma weekday_boundaries_witness :
  valid_datetime wednesday_march_8 /\
  is_holiday us_2023 wednesday_march_8 = Some false /\
  Spec.day_type wednesday_march_8 false = Spec.Weekday /\
  exists s, get_tou_bucket us_2023 wednesday_march_8 = Some s /\
    ((6 <= Spec.t wednesday_march_8 < 16)%Q ->
       s = "Off-Peak (Weekday)" \/ s = "Extra Off-Peak (Mar/Apr, Weekday)").
Proof.
  assert (Hv : valid_datetime wednesday_march_8)
    by (unfold valid_datetime; simpl; lia).
  assert (Hh : is_holiday us_2023 wednesday_march_8 = Some false)
    by (vm_compute; reflexivity).
  assert (Hd : Spec.day_type wednesday_march_8 false = Spec.Weekday)
    by reflexivity.
  split; [exact Hv|]. split; [exact Hh|]. split; [exact Hd|].
  destruct (weekday_boundaries us_2023 wednesday_march_8 false Hv Hh Hd)
    as (s & Hs & _ & H616 & _).
  exists s. split; [exact Hs|exact H616].
Defined.

(** C4. On a Weekday day-type the label is ExtraOffPeak exactly when the
    month is March or April and 10 <= t < 14; elsewhere in 6 <= t < 16 it
    is OffPeak.  A Wednesday in March is ExtraOffPeak at 10:00 and OffPeak
    at 9:59 and at 14:00; a Wednesday in January is OffPeak at 10:00. *)
Theorem extra_off_peak_window US (now : datetime) (h : bool) :
  valid_datetime now -> is_holiday US now = Some h ->
  Spec.day_type now h = Spec.Weekday ->
  exists s,
    get_tou_bucket US now = Some s /\
    (s = "Extra Off-Peak (Mar/Apr, Weekday)" <->
       (month now = 3 \/ month now = 4) /\ (10 <= Spec.t now < 14)%Q) /\
    ((6 <= Spec.t now < 16)%Q ->
       ~ ((month now = 3 \/ month now = 4) /\ (10 <= Spec.t now < 14)%Q) ->
       s = "Off-Peak (Weekday)") /\
    (weekday now = 2 -> month now = 3 -> hour now = 10 -> minute now = 0 ->
       s = "Extra Off-Peak (Mar/Apr, Weekday)") /\
    (weekday now = 2 -> month now = 3 -> hour now = 9 -> minute now = 59 ->
       s = "Off-Peak (Weekday)") /\
    (weekday now = 2 -> month now = 3 -> hour now = 14 -> minute now = 0 ->
       s = "Off-Peak (Weekday)") /\
    (weekday now = 2 -> month now = 1 -> hour now = 10 -> minute now = 0 ->
       s = "Off-Peak (Weekday)").
Proof.
  intros Hv Hh Hd. rewrite (get_tou_bucket_answer US now h Hv Hh), Hd.
  eexists. split; [reflexivity|]. unfold weekday_bucket.
  split; [split|split; [|repeat split]].
  - intros Hs. split.
    + revert Hs. z_cases; simpl; try discriminate; lia.
    + goal_minutes; revert Hs; z_cases; simpl; try discriminate; lia.
  - intros [Hm Ht]. table_cases.
  - intros Ht Hn.
    assert (Hn' : ~ ((month now = 3 \/ month now = 4) /\
                     60 * 10 <= minute_of_day now < 60 * 14)).
    { intros [Hm Hr]. apply Hn. split; [exact Hm|]. goal_minutes; lia. }
    to_minutes. z_cases; simpl in *; try reflexivity; lia.
  - table_cases.
  - table_cases.
  - table_cases.
  - table_cases.
Qed.

Lemma extra_off_peak_window_witness :
  valid_datetime wednesday_march_8 /\
  is_holiday us_2023 wednesday_march_8 = Some false /\
  Spec.day_type wednesday_march_8 false = Spec.Weekday /\
  get_tou_bucket us_2023 wednesday_march_8 =
    Some "Extra Off-Peak (Mar/Apr, Weekday)".
Proof.
  assert (Hv : valid_datetime wednesday_march_8)
    by (unfold valid_datetime; simpl; lia).
  assert (Hh : is_holiday us_2023 wednesday_march_8 = Some false)
    by (vm_compute; reflexivity).
  assert (Hd : Spec.day_type wednesday_march_8 false = Spec.Weekday)
    by reflexivity.
  split; [exact Hv|]. split; [exact Hh|]. split; [exact Hd|].
  destruct (extra_off_peak_window us_2023 wednesday_march_8 false Hv Hh Hd)
    as (s & Hs & _ & _ & Hex & _).
  rewrite Hs. f_equal. apply Hex; reflexivity.
Defined.

(** C5. On a Weekend-or-Holiday day-type (Saturday, Sunday, or a holiday
    answer of true) the label follows the table: SuperOffPeak below 14,
    OffPeak from 14 up to 16, OnPeak from 16 up to 21, OffPeak from 21 on.
    Saturday 13:59 is SuperOffPeak, 14:00 and 15:59 are OffPeak, 16:00 is
    OnPeak. *)
Theorem weekend_table_followed US (now : datetime) :
  valid_datetime now ->
  weekday now = 5 \/ weekday now = 6 \/ is_holiday US now = Some true ->
  exists s,
    get_tou_bucket US now = Some s /\
    ((Spec.t now < 14)%Q -> s = "Super Off-Peak (Weekend/Holiday)") /\
    ((14 <= Spec.t now < 16)%Q -> s = "Off-Peak (Weekend/Holiday)") /\
    ((16 <= Spec.t now < 21)%Q -> s = "On-Peak (Weekend/Holiday)") /\
    ((21 <= Spec.t now)%Q -> s = "Off-Peak (Weekend/Holiday)") /\
    (weekday now = 5 -> hour now = 13 -> minute now = 59 ->
       s = "Super Off-Peak (Weekend/Holiday)") /\
    (weekday now = 5 -> hour now = 14 -> minute now = 0 ->
       s = "Off-Peak (Weekend/Holiday)") /\
    (weekday now = 5 -> hour now = 15 -> minute now = 59 ->
       s = "Off-Peak (Weekend/Holiday)") /\
    (weekday now = 5 -> hour now = 16 -> minute now = 0 ->
       s = "On-Peak (Weekend/Holiday)").
Proof.
  intros Hv Hw.
  assert (Hg : get_tou_bucket US now =
               Some (weekend_bucket (minute_of_day now))).
  { destruct Hw as [Hw|[Hw|Hw]].
    - apply get_tou_bucket_weekend; [assumption|lia].
    - apply get_tou_bucket_weekend; [assumption|lia].
    - rewrite (get_tou_bucket_answer US now true Hv Hw).
      unfold Spec.day_type. rewrite orb_true_r. reflexivity. }
  rewrite Hg. eexists. split; [reflexivity|]. unfold weekend_bucket.
  repeat split; table_cases.
Qed.

Lemma weekend_table_followed_witness :
  valid_datetime saturday_july_8 /\
  (weekday saturday_july_8 = 5 \/ weekday saturday_july_8 = 6 \/
   is_holiday oracle_down saturday_july_8 = Some true) /\
  get_tou_bucket oracle_down saturday_july_8 =
    Some "On-Peak (Weekend/Holiday)".
Proof.
  assert (Hv : valid_datetime saturday_july_8)
    by (unfold valid_datetime; simpl; lia).
  assert (Hw : weekday saturday_july_8 = 5 \/ weekday saturday_july_8 = 6 \/
               is_holiday oracle_down saturday_july_8 = Some true)
    by (left; reflexivity).
  split; [exact Hv|]. split; [exact Hw|].
  destruct (weekend_table_followed oracle_down saturday_july_8 Hv Hw)
    as (s & Hs & _ & _ & Hon & _).
  rewrite Hs. f_equal. apply Hon.
  split; [unfold Qle | unfold Qlt]; simpl; lia.
Defined.

(** C6. A bucket whose label contains "On-Peak" (the program's spelling of
    OnPeak) gets the discouraging theme, colour #f0e5d8 with the stop
    sign; every other bucket gets the encouraging theme, colour #e0f7fa
    with the check mark.  For every label [get_tou_bucket] returns, the
    theme is discouraging exactly when the bucket is an OnPeak bucket, and
    encouraging exactly when it is not. *)
Theorem theme_consistency :
  (forall bucket,
     (exists pre post, bucket = pre +:+ "On-Peak" +:+ post) ->
     get_theme_for_bucket bucket = {| bg_color := "#f0e5d8"; emoji := "🚫" |}) /\
  (forall bucket,
     ~ (exists pre post, bucket = pre +:+ "On-Peak" +:+ post) ->
     get_theme_for_bucket bucket = {| bg_color := "#e0f7fa"; emoji := "✅" |}) /\
  (forall US now s,
     get_tou_bucket US now = Some s ->
     (get_theme_for_bucket s = Spec.discouraging <->
        exists d, Spec.bucket_of_label s = Some (Spec.OnPeak, d)) /\
     (get_theme_for_bucket s = Spec.encouraging <->
        ~ exists d, Spec.bucket_of_label s = Some (Spec.OnPeak, d))).
Proof.
  split; [|split].
  - intros bucket H. apply str_in_spec in H.
    unfold get_theme_for_bucket. rewrite H. reflexivity.
  - intros bucket H. unfold get_theme_for_bucket.
    destruct (str_in "On-Peak" bucket) eqn:E; [|reflexivity].
    apply str_in_spec in E. contradiction.
  - intros US now s Hs. apply get_tou_bucket_labels in Hs.
    simpl in Hs.
    repeat (destruct Hs as [<-|Hs]; [
      split; (split; [ try discriminate; try (intros _; eexists; reflexivity);
                       try (intros _ [d Hd]; discriminate)
                     | try reflexivity; try (intros [d Hd]; discriminate);
                       try (intros Hn; exfalso; apply Hn; eexists; reflexivity) ])
      |]).
    contradiction.
Qed.

Lemma theme_consistency_witness :
  (exists pre post, "On-Peak (Weekday)" = pre +:+ "On-Peak" +:+ post) /\
  get_theme_for_bucket "On-Peak (Weekday)" =
    {| bg_color := "#f0e5d8"; emoji := "🚫" |}.
Proof.
  assert (H : exists pre post, "On-Peak (Weekday)" = pre +:+ "On-Peak" +:+ post)
    by (exists "", " (Weekday)"; reflexivity).
  split; [exact H|].
  exact (proj1 theme_consistency "On-Peak (Weekday)" H).
Defined.




(** C9. On a Saturday or Sunday the label does not depend on the oracle:
    any two oracles, whether they answer true, answer false or fail, lead
    to the same result. *)
Theorem weekend_ignores_oracle US1 US2 (now : datetime) :
  weekday now = 5 \/ weekday now = 6 ->
  get_tou_bucket US1 now = get_tou_bucket US2 now.
Proof.
  intros Hw. unfold get_tou_bucket.
  assert (E : (5 <=? weekday now) = true) by (apply Z.leb_le; lia).
  rewrite E. reflexivity.
Qed.

Lemma weekend_ignores_oracle_witness :
  (weekday saturday_november_11 = 5 \/ weekday saturday_november_11 = 6) /\
  is_holiday us_2023 saturday_november_11 = Some true /\
  is_holiday no_holidays saturday_november_11 = Some false /\
  get_tou_bucket us_2023 saturday_november_11 =
    get_tou_bucket no_holidays saturday_november_11.
Proof.
  assert (Hw : weekday saturday_november_11 = 5 \/
               weekday saturday_november_11 = 6) by (left; reflexivity).
  split; [exact Hw|].
  split; [vm_compute; reflexivity|]. split; [vm_compute; reflexivity|].
  exact (weekend_ignores_oracle us_2023 no_holidays saturday_november_11 Hw).
Defined.

(** C10. From 16:00 on the two tables agree up to the qualifier: two runs
    at the same time of day, whatever their day-types, return the same
    period, each with its own day-type; the period is OnPeak when
    16 <= t < 21 and OffPeak when 21 <= t. *)
Theorem tables_agree_from_16 US1 US2 (now1 now2 : datetime) (h1 h2 : bool) :
  valid_datetime now1 -> valid_datetime now2 ->
  is_holiday US1 now1 = Some h1 -> is_holiday US2 now2 = Some h2 ->
  hour now1 = hour now2 -> minute now1 = minute now2 ->
  (16 <= Spec.t now1)%Q ->
  exists s1 s2 p,
    get_tou_bucket US1 now1 = Some s1 /\
    get_tou_bucket US2 now2 = Some s2 /\
    Spec.bucket_of_label s1 = Some (p, Spec.day_type now1 h1) /\
    Spec.bucket_of_label s2 = Some (p, Spec.day_type now2 h2) /\
    ((Spec.t now1 < 21)%Q -> p = Spec.OnPeak) /\
    ((21 <= Spec.t now1)%Q -> p = Spec.OffPeak).
Proof.
  intros Hv1 Hv2 Hh1 Hh2 Hhour Hmin Ht.
  rewrite (get_tou_bucket_answer US1 now1 h1 Hv1 Hh1).
  rewrite (get_tou_bucket_answer US2 now2 h2 Hv2 Hh2).
  assert (Hm : minute_of_day now2 = minute_of_day now1)
    by (unfold minute_of_day; rewrite Hhour, Hmin; reflexivity).
  rewrite Hm. to_minutes.
  eexists _, _, (if minute_of_day now1 <? 60 * 21
                 then Spec.OnPeak else Spec.OffPeak).
  split; [reflexivity|]. split; [reflexivity|].
  destruct (Spec.day_type now1 h1), (Spec.day_type now2 h2);
    unfold weekday_bucket, weekend_bucket;
    repeat split; intros; to_minutes; z_cases; try lia; reflexivity.
Qed.

Lemma tables_agree_from_16_witness :
  valid_datetime thursday_january_12 /\ valid_datetime saturday_july_8 /\
  is_holiday no_holidays thursday_january_12 = Some false /\
  is_holiday us_2023 saturday_july_8 = Some false /\
  (16 <= Spec.t thursday_january_12)%Q /\
  exists s1 s2 p,
    get_tou_bucket no_holidays thursday_january_12 = Some s1 /\
    get_tou_bucket us_2023 saturday_july_8 = Some s2 /\
    Spec.bucket_of_label s1 = Some (p, Spec.Weekday) /\
    Spec.bucket_of_label s2 = Some (p, Spec.WeekendOrHoliday).
Proof.
  assert (Hv1 : valid_datetime thursday_january_12)
    by (unfold valid_datetime; simpl; lia).
  assert (Hv2 : valid_datetime saturday_july_8)
    by (unfold valid_datetime; simpl; lia).
  assert (Hh1 : is_holiday no_holidays thursday_january_12 = Some false)
    by (vm_compute; reflexivity).
  assert (Hh2 : is_holiday us_2023 saturday_july_8 = Some false)
    by (vm_compute; reflexivity).
  assert (Ht : (16 <= Spec.t thursday_january_12)%Q)
    by (unfold Qle; simpl; lia).
  repeat (split; [assumption|]).
  destruct (tables_agree_from_16 no_holidays us_2023
              thursday_january_12 saturday_july_8 false false
              Hv1 Hv2 Hh1 Hh2 eq_refl eq_refl Ht)
    as (s1 & s2 & p & H1 & H2 & H3 & H4 & _).
  exists s1, s2, p. repeat split; assumption.
Defined.

(** * Further properties of the program *)

(** X1. For a valid time of day and a whole-hour threshold [k] from 0 to
    24, the float [t = hour + minute / 60.0] compares with [k] exactly as
    the hour does: the rounding of the division and of the sum never moves
    [t] across a threshold, and [0 <= t < 24]. *)
Theorem decimal_hours_whole_hours (now : datetime) (k : Z) :
  valid_datetime now -> 0 <= k <= 24 ->
  float_lt_int (decimal_hours now) k = (hour now <? k) /\
  int_le_float k (decimal_hours now) = (k <=? hour now) /\
  int_le_float 0 (decimal_hours now) = true /\
  float_lt_int (decimal_hours now) 24 = true.
Proof.
  intros Hv Hk.
  rewrite !(float_lt_int_minutes now) by (assumption || lia).
  rewrite !(int_le_float_minutes now) by (assumption || lia).
  destruct Hv as (_ & _ & _ & Hh & Hm & _). unfold minute_of_day.
  repeat split; z_cases; lia || reflexivity.
Qed.

Lemma decimal_hours_whole_hours_witness :
  valid_datetime saturday_july_8 /\ 0 <= 21 <= 24 /\
  float_lt_int (decimal_hours saturday_july_8) 21 = true.
Proof.
  assert (Hv : valid_datetime saturday_july_8)
    by (unfold valid_datetime; simpl; lia).
  assert (Hk : 0 <= 21 <= 24) by lia.
  split; [exact Hv|]. split; [exact Hk|].
  exact (proj1 (decimal_hours_whole_hours saturday_july_8 21 Hv Hk)).
Defined.

(** X2. The label depends on the timestamp and the oracle only through
    three facts: whether [weekday >= 5 or holiday] holds, the hour, and
    whether the month is March or April.  The year, the day, the minute
    and the rest of the oracle play no role. *)
Theorem label_depends_on_three_facts
    US1 US2 (now1 now2 : datetime) (h1 h2 : bool) :
  valid_datetime now1 -> valid_datetime now2 ->
  is_holiday US1 now1 = Some h1 -> is_holiday US2 now2 = Some h2 ->
  (5 <=? weekday now1) || h1 = (5 <=? weekday now2) || h2 ->
  hour now1 = hour now2 ->
  (month now1 =? 3) || (month now1 =? 4) =
    (month now2 =? 3) || (month now2 =? 4) ->
  get_tou_bucket US1 now1 = get_tou_bucket US2 now2.
Proof.
  intros Hv1 Hv2 Hh1 Hh2 Hd Hhour Hmonth.
  rewrite !get_tou_bucket_minutes by assumption. rewrite Hh1, Hh2.
  assert (Hc : (if 5 <=? weekday now1 then Some true else Some h1) =
               (if 5 <=? weekday now2 then Some true else Some h2)).
  { revert Hd. destruct (5 <=? weekday now1), (5 <=? weekday now2);
      simpl; congruence. }
  rewrite Hc.
  destruct (if 5 <=? weekday now2 then Some true else Some h2)
    as [c|]; [|reflexivity].
  simpl. f_equal.
  destruct Hv1 as (_ & _ & _ & Hr1 & Hm1 & _).
  destruct Hv2 as (_ & _ & _ & Hr2 & Hm2 & _).
  unfold weekend_bucket, weekday_bucket, minute_of_day.
  rewrite Hmonth, Hhour.
  destruct c, ((month now2 =? 3) || (month now2 =? 4));
    z_cases; try lia; reflexivity.
Qed.

Lemma label_depends_on_three_facts_witness :
  valid_datetime saturday_july_8 /\ valid_datetime saturday_november_11 /\
  get_tou_bucket no_holidays saturday_july_8 =
    get_tou_bucket us_2023 saturday_november_11.
Proof.
  assert (Hv1 : valid_datetime saturday_july_8)
    by (unfold valid_datetime; simpl; lia).
  assert (Hv2 : valid_datetime saturday_november_11)
    by (unfold valid_datetime; simpl; lia).
  split; [exact Hv1|]. split; [exact Hv2|].
  apply (label_depends_on_three_facts no_holidays us_2023
           saturday_july_8 saturday_november_11 false true Hv1 Hv2);
    vm_compute; reflexivity.
Defined.

(** X3. On a valid timestamp [get_tou_bucket] has one failure mode: it
    raises exactly when the weekday is Monday to Friday and the holiday
    lookup raises.  In every other case it returns a label.  (Validity
    is what makes [float_of_int] the conversion that Python performs.) *)
Theorem get_tou_bucket_fails_iff US (now : datetime) :
  valid_datetime now ->
  (get_tou_bucket US now = None <->
     weekday now < 5 /\ US (year now) = None).
Proof.
  intros _. exact (get_tou_bucket_none US now).
Qed.

Lemma get_tou_bucket_fails_iff_witness :
  valid_datetime tuesday_july_4 /\
  weekday tuesday_july_4 < 5 /\
  oracle_down (year tuesday_july_4) = None /\
  get_tou_bucket oracle_down tuesday_july_4 = None.
Proof.
  assert (Hv : valid_datetime tuesday_july_4)
    by (unfold valid_datetime; simpl; lia).
  assert (Hw : weekday tuesday_july_4 < 5) by (simpl; lia).
  assert (Hn : oracle_down (year tuesday_july_4) = None) by reflexivity.
  split; [exact Hv|]. split; [exact Hw|]. split; [exact Hn|].
  exact (proj2 (get_tou_bucket_fails_iff oracle_down tuesday_july_4 Hv)
               (conj Hw Hn)).
Defined.

(** X4. A holiday is treated as a weekend: a timestamp the oracle answers
    true for gets the label that a Saturday or Sunday gets at the same hour
    and minute, whatever the two dates and months are. *)
Theorem holiday_treated_as_weekend US US' (now sat : datetime) :
  is_holiday US now = Some true ->
  weekday sat = 5 \/ weekday sat = 6 ->
  hour sat = hour now -> minute sat = minute now ->
  get_tou_bucket US now = get_tou_bucket US' sat.
Proof.
  intros Hh Hw Hhour Hmin. unfold get_tou_bucket. cbv zeta.
  assert (Ht : decimal_hours sat = decimal_hours now)
    by (unfold decimal_hours; rewrite Hhour, Hmin; reflexivity).
  assert (Hs : (5 <=? weekday sat) = true) by (apply Z.leb_le; lia).
  rewrite Ht, Hs, Hh. destruct (5 <=? weekday now); reflexivity.
Qed.

Lemma holiday_treated_as_weekend_witness :
  is_holiday us_2023 tuesday_july_4 = Some true /\
  get_tou_bucket us_2023 tuesday_july_4 =
    get_tou_bucket oracle_down (mk_datetime 2023 7 8 13 0 5).
Proof.
  assert (Hh : is_holiday us_2023 tuesday_july_4 = Some true)
    by (vm_compute; reflexivity).
  split; [exact Hh|].
  apply (holiday_treated_as_weekend us_2023 oracle_down tuesday_july_4
           (mk_datetime 2023 7 8 13 0 5) Hh); [left|..]; reflexivity.
Defined.

(** X5. The theme of the label of a valid timestamp is the discouraging
    one exactly from 16:00 to 20:59, on every day of the week, holiday or
    not, in every month; at any other time it is the encouraging one. *)
Theorem theme_discourages_from_16_to_21 US (now : datetime) (s : string) :
  valid_datetime now -> get_tou_bucket US now = Some s ->
  (get_theme_for_bucket s = {| bg_color := "#f0e5d8"; emoji := "🚫" |} <->
     16 <= hour now <= 20) /\
  (get_theme_for_bucket s = {| bg_color := "#e0f7fa"; emoji := "✅" |} <->
     ~ 16 <= hour now <= 20).
Proof.
  intros Hv Hs. rewrite get_tou_bucket_minutes in Hs by assumption.
  destruct Hv as (_ & _ & _ & Hh & Hm & _).
  destruct (if 5 <=? weekday now then Some true else is_holiday US now)
    as [c|]; [|discriminate].
  simpl in Hs. injection Hs as <-.
  unfold weekend_bucket, weekday_bucket, minute_of_day.
  destruct c; z_cases; simpl;
    (split; split; intros Hx; try reflexivity; try lia;
     vm_compute in Hx; discriminate Hx).
Qed.

Lemma theme_discourages_from_16_to_21_witness :
  valid_datetime saturday_july_8 /\
  get_tou_bucket oracle_down saturday_july_8 =
    Some "On-Peak (Weekend/Holiday)" /\
  16 <= hour saturday_july_8 <= 20.
Proof.
  assert (Hv : valid_datetime saturday_july_8)
    by (unfold valid_datetime; simpl; lia).
  assert (Hs : get_tou_bucket oracle_down saturday_july_8 =
               Some "On-Peak (Weekend/Holiday)") by (vm_compute; reflexivity).
  split; [exact Hv|]. split; [exact Hs|].
  apply (proj1 (theme_discourages_from_16_to_21 oracle_down saturday_july_8
                  _ Hv Hs)).
  reflexivity.
Defined.

(** X6. The labels of [get_tou_bucket] are exactly the seven of [labels]:
    no run returns another string, and each of the seven is returned for
    some valid timestamp, even by an oracle that knows no holiday. *)
Theorem labels_are_exactly_the_results :
  (forall US now s, get_tou_bucket US now = Some s -> In s labels) /\
  (forall s, In s labels ->
     exists now,
       valid_datetime now /\ get_tou_bucket no_holidays now = Some s).
Proof.
  split; [exact get_tou_bucket_labels|].
  assert (Hv : forall mo d h mi w,
             1 <= mo <= 12 -> 1 <= d <= 31 -> 0 <= h <= 23 ->
             0 <= mi <= 59 -> 0 <= w <= 6 ->
             valid_datetime (mk_datetime 2023 mo d h mi w))
    by (intros; unfold valid_datetime; simpl; lia).
  intros s Hs. simpl in Hs.
  destruct Hs as [<-|[<-|[<-|[<-|[<-|[<-|[<-|[]]]]]]]].
  - exists (mk_datetime 2023 7 8 13 0 5).
    split; [apply Hv; lia | vm_compute; reflexivity].
  - exists (mk_datetime 2023 7 8 15 0 5).
    split; [apply Hv; lia | vm_compute; reflexivity].
  - exists saturday_july_8.
    split; [apply Hv; lia | vm_compute; reflexivity].
  - exists (mk_datetime 2023 3 8 5 0 2).
    split; [apply Hv; lia | vm_compute; reflexivity].
  - exists wednesday_march_8.
    split; [apply Hv; lia | vm_compute; reflexivity].
  - exists tuesday_july_4.
    split; [apply Hv; lia | vm_compute; reflexivity].
  - exists thursday_january_12.
    split; [apply Hv; lia | vm_compute; reflexivity].
Qed.

Lemma labels_are_exactly_the_results_witness :
  get_tou_bucket us_2023 tuesday_july_4 =
    Some "Super Off-Peak (Weekend/Holiday)" /\
  In "Super Off-Peak (Weekend/Holiday)" labels.
Proof.
  assert (Hs : get_tou_bucket us_2023 tuesday_july_4 =
               Some "Super Off-Peak (Weekend/Holiday)")
    by (vm_compute; reflexivity).
  split; [exact Hs|].
  exact (proj1 labels_are_exactly_the_results us_2023 tuesday_july_4 _ Hs).
Defined.

(** X7. The test ["On-Peak" in bucket] looks anywhere in the label: a
    bucket with the discouraging theme keeps it when any text is put in
    front of it or behind it. *)
Theorem discouraging_theme_survives_decoration (pre bucket post : string) :
  get_theme_for_bucket bucket = {| bg_color := "#f0e5d8"; emoji := "🚫" |} ->
  get_theme_for_bucket (pre +:+ bucket +:+ post) =
    {| bg_color := "#f0e5d8"; emoji := "🚫" |}.
Proof.
  unfold get_theme_for_bucket.
  destruct (str_in "On-Peak" bucket) eqn:E; [intros _|discriminate].
  apply str_in_spec in E as (p1 & p2 & ->).
  assert (Hin : str_in "On-Peak" (pre +:+ (p1 +:+ "On-Peak" +:+ p2) +:+ post)
                = true).
  { apply str_in_spec. exists (pre +:+ p1), (p2 +:+ post).
    rewrite !append_assoc. reflexivity. }
  rewrite Hin. reflexivity.
Qed.

Lemma discouraging_theme_survives_decoration_witness :
  get_theme_for_bucket "On-Peak (Weekday)" =
    {| bg_color := "#f0e5d8"; emoji := "🚫" |} /\
  get_theme_for_bucket ("Now: " +:+ "On-Peak (Weekday)" +:+ "!") =
    {| bg_color := "#f0e5d8"; emoji := "🚫" |}.
Proof.
  assert (H : get_theme_for_bucket "On-Peak (Weekday)" =
              {| bg_color := "#f0e5d8"; emoji := "🚫" |}) by reflexivity.
  split; [exact H|].
  exact (discouraging_theme_survives_decoration "Now: " _ "!" H).
Defined.

(** X8. [main] raises exactly when the classification does, that is on a
    Monday-to-Friday reading whose holiday lookup raises; the page
    configuration is then the only call it has made.  Otherwise it returns
    after eight calls. *)
Theorem main_raises_iff US strftime (now : datetime) :
  (snd (main US strftime now) = Raised <->
     weekday now < 5 /\ US (year now) = None) /\
  (fst (main US strftime now) =
     st_set_page_config "TOU Bucket Tracker" "centered" :: nil <->
     snd (main US strftime now) = Raised) /\
  (length (fst (main US strftime now)) = 8%nat <->
     snd (main US strftime now) = Returned).
Proof.
  rewrite <- get_tou_bucket_none. unfold main. cbv zeta.
  destruct (get_tou_bucket US now) as [s|]; simpl;
    repeat split; intros Hx; try reflexivity; discriminate Hx.
Qed.

(** X9. Whatever the clock, the oracle and [strftime] return, every call
    to [st.markdown] that [main] makes allows raw HTML, and its body is one
    of four fixed texts: the style sheet with one of the two colours or the
    block with one of the two emoji.  No text from outside reaches it. *)
Theorem main_raw_html_is_fixed US strftime (now : datetime)
    (body : string) (raw : bool) :
  In (st_markdown body raw) (fst (main US strftime now)) ->
  raw = true /\
  (body = style_sheet "#f0e5d8" \/ body = style_sheet "#e0f7fa" \/
   body = emoji_block "🚫" \/ body = emoji_block "✅").
Proof.
  unfold main, get_theme_for_bucket. cbv zeta.
  destruct (get_tou_bucket US now) as [s|]; simpl.
  - destruct (str_in "On-Peak" s); simpl;
      intros [H|[H|[H|[H|[H|[H|[H|[H|[]]]]]]]]];
      try discriminate H; injection H as <- <-; tauto.
  - intros [H|[]]. discriminate H.
Qed.

Lemma main_raw_html_is_fixed_witness :
  In (st_markdown (emoji_block "🚫") true)
     (fst (main no_holidays sample_strftime thursday_january_12)) /\
  true = true.
Proof.
  assert (H : In (st_markdown (emoji_block "🚫") true)
                 (fst (main no_holidays sample_strftime thursday_january_12)))
    by (vm_compute; tauto).
  split; [exact H|].
  exact (proj1 (main_raw_html_is_fixed no_holidays sample_strftime
                  thursday_january_12 _ _ H)).
Defined.

(** A call is not on a page: each call of the page differs from it. *)
Ltac refute_membership H :=
  cbn [In] in H;
  repeat (destruct H as [H|H]; [vm_compute in H; discriminate H|]);
  contradiction.

(** One direction of a statement that a call is on a page exactly when the
    hour lies in a range, the range being decided in the context. *)
Ltac page_goal :=
  first [ solve [intros _; assumption]
        | solve [intros _; cbn [In]; auto 10]
        | solve [let Hn := fresh in intros Hn; exfalso; tauto]
        | solve [let Hin := fresh in
                 intros Hin; exfalso; refute_membership Hin] ].

(** X10. When [main] returns on a valid reading of the clock, the page
    shows under the header the label that [get_tou_bucket] returned, and
    its colour and emoji go together and follow the hour: the muted
    background and the stop sign exactly from 16:00 to 20:59, the cool
    background and the check mark exactly at all other times. *)
Theorem main_page_follows_the_hour US strftime (now : datetime) :
  valid_datetime now -> snd (main US strftime now) = Returned ->
  let page := fst (main US strftime now) in
  (exists s, get_tou_bucket US now = Some s /\ In (st_subheader s) page /\
     forall s', In (st_subheader s') page -> s' = s) /\
  (In (st_markdown (style_sheet "#f0e5d8") true) page <->
     16 <= hour now <= 20) /\
  (In (st_markdown (emoji_block "🚫") true) page <-> 16 <= hour now <= 20) /\
  (In (st_markdown (style_sheet "#e0f7fa") true) page <->
     ~ 16 <= hour now <= 20) /\
  (In (st_markdown (emoji_block "✅") true) page <-> ~ 16 <= hour now <= 20).
Proof.
  intros Hv Hret. unfold main in *. cbv zeta in *.
  destruct (get_tou_bucket US now) as [s|] eqn:E; [|discriminate Hret].
  rewrite (theme_by_hour US now s Hv E). cbn [fst].
  split.
  - exists s. split; [reflexivity|]. split; [cbn [In]; auto 10|].
    intros s' Hin. cbn [In] in Hin.
    destruct Hin as [H|[H|[H|[H|[H|[H|[H|[H|[]]]]]]]]];
      try discriminate H. injection H as <-. reflexivity.
  - assert (Hb : (16 <=? hour now) && (hour now <=? 20) = true <->
                 16 <= hour now <= 20)
      by (rewrite andb_true_iff, !Z.leb_le; reflexivity).
    destruct ((16 <=? hour now) && (hour now <=? 20));
      cbn [bg_color emoji].
    + assert (Hr : 16 <= hour now <= 20) by (apply Hb; reflexivity).
      split; [|split; [|split]]; split; page_goal.
    + assert (Hr : ~ 16 <= hour now <= 20)
        by (intros Hr; apply Hb in Hr; discriminate Hr).
      split; [|split; [|split]]; split; page_goal.
Qed.

Lemma main_page_follows_the_hour_witness :
  valid_datetime thursday_january_12 /\
  snd (main no_holidays sample_strftime thursday_january_12) = Returned /\
  In (st_markdown (emoji_block "🚫") true)
     (fst (main no_holidays sample_strftime thursday_january_12)).
Proof.
  assert (Hv : valid_datetime thursday_january_12)
    by (unfold valid_datetime; simpl; lia).
  assert (Hret : snd (main no_holidays sample_strftime thursday_january_12)
                 = Returned) by (vm_compute; reflexivity).
  split; [exact Hv|]. split; [exact Hret|].
  apply (proj1 (proj2 (proj2 (main_page_follows_the_hour no_holidays
                  sample_strftime thursday_january_12 Hv Hret)))).
  simpl. lia.
Defined.
